(** * pulp_cookbook: the content and publisher viewsets

    A shallow embedding of [pulp_cookbook/app/viewsets.py]:
    - [_RepositoryPublishURLSerializer.validate], which turns a publish
      request into one repository version;
    - [CookbookPackageContentViewSet.create], which admits a cookbook
      artifact as a content unit inside one database transaction;
    - [CookbookPublisherViewSet.publish], which enqueues the publish task.

    Python exceptions are values of [exn]; a view is a function from the
    world (database tables and task queue) to an outcome and a new world.
    An exception leaves the world as it was when it was raised; only
    [atomic] (Django's [transaction.atomic]) undoes database writes. *)

From stdpp Require Import base option strings pretty gmap list.

Local Open Scope string_scope.

(** ** Python exceptions and outcomes *)

(** The [detail] of a REST framework [ValidationError]: a plain message,
    a one-entry dict [{field: message}] as the views build it, or the error
    dict of a serializer (field name to list of messages), which is what
    [is_valid(raise_exception=True)] raises. *)
Inductive detail : Type :=
  | Message (msg : string)
  | Field (field msg : string)
  | SerializerErrors (errors : list (string * list string)).

#[global] Instance detail_eq_dec : EqDecision detail.
Proof. solve_decision. Defined.

Inductive exn : Type :=
  | KeyError (key : string)
  | FileNotFoundError
  | AttributeError (msg : string)
  | ValidationError (d : detail)
  | Http404
  | OtherException (name : string).

#[global] Instance exn_eq_dec : EqDecision exn.
Proof. solve_decision. Defined.

Inductive result (A : Type) : Type :=
  | Return (a : A)
  | Raise (e : exn).
Arguments Return {A} a.
Arguments Raise {A} e.

(** Truth value of an object that is either [None] or a model instance:
    Django models define neither [__bool__] nor [__len__], so an instance is
    true and only [None] is false. *)
Definition truthy {A : Type} (o : option A) : bool :=
  match o with
  | Some _ => true
  | None => false
  end.

(** ** The object model the views work on *)

(** Primary keys are opaque; [str] of a key is a collaborator function. *)
Definition Pk : Type := N.

Module Artifact.
Record t : Type := { pk : Pk; file_name : string }.
End Artifact.

Module Repository.
Record t : Type := { pk : Pk }.
End Repository.

Module RepositoryVersion.
Record t : Type := { pk : Pk; repository : Repository.t; number : N }.
End RepositoryVersion.

Module CookbookPublisher.
Record t : Type := { pk : Pk }.
End CookbookPublisher.

(** [pulp_cookbook.metadata.CookbookMetadata], as far as the views read it. *)
Module CookbookMetadata.
Record t : Type := {
  version : string;
  dependencies : gmap string string
}.
End CookbookMetadata.

Module CookbookPackageContent.
Record t : Type := {
  pk : Pk;
  name : string;
  version : string;
  dependencies : gmap string string
}.
End CookbookPackageContent.

(** A row of the table that binds a content unit to its artifact. *)
Module ContentArtifact.
Record t : Type := { content : Pk; artifact : Artifact.t }.
End ContentArtifact.

(** A model instance used as a reservation of the tasking system. *)
Inductive Resource : Type :=
  | RepositoryResource (r : Repository.t)
  | PublisherResource (p : CookbookPublisher.t).

Module Task.
Record t : Type := {
  task_name : string;
  resources : list Resource;
  kwargs : gmap string string
}.
End Task.

Module Response.
Record t : Type := {
  data : CookbookPackageContent.t;
  status : N;
  headers : list (string * string)
}.
End Response.

Module OperationPostponedResponse.
Record t : Type := { task_id : nat }.
End OperationPostponedResponse.

Definition HTTP_201_CREATED : N := 201%N.

(** The validated data of [_RepositoryPublishURLSerializer]: a dict with at
    most the keys ['repository'] and ['repository_version'].  Both fields are
    declared [required=False] and keep the default [allow_null=False], so a
    key is either absent ([None] here, which is also what [data.get] gives)
    or bound to a model instance of the field's queryset. *)
Module PublishData.
Record t : Type := {
  repository : option Repository.t;
  repository_version : option RepositoryVersion.t
}.

(** [self.update(other)]: every key of [other] overrides the one of [self]. *)
Definition update (self other : t) : t :=
  {| repository :=
       match repository other with
       | Some r => Some r
       | None => repository self
       end;
     repository_version :=
       match repository_version other with
       | Some v => Some v
       | None => repository_version self
       end |}.
End PublishData.

(** ** The world and the monad of views *)

Record Database : Type := {
  content : list CookbookPackageContent.t;
  content_artifact : list ContentArtifact.t
}.

Record World : Type := {
  db : Database;
  queue : list Task.t
}.

Definition M (A : Type) : Type := World → result A * World.

#[global] Instance M_ret : MRet M := λ A a w, (Return a, w).

#[global] Instance M_bind : MBind M := λ A B f m w,
  match m w with
  | (Return a, w') => f a w'
  | (Raise e, w') => (Raise e, w')
  end.

Definition raise {A : Type} (e : exn) : M A := λ w, (Raise e, w).

(** The outcome of a collaborator that does not write. *)
Definition lift {A : Type} (r : result A) : M A := λ w, (r, w).

(** [try: body except ...: handler]; a handler that answers [None] does not
    match the exception, which then propagates. *)
Definition try_except {A : Type} (body : M A) (handler : exn → option (M A)) : M A :=
  λ w,
    match body w with
    | (Return a, w') => (Return a, w')
    | (Raise e, w') =>
        match handler e with
        | Some h => h w'
        | None => (Raise e, w')
        end
    end.

(** [@transaction.atomic]: when the body raises, the database is put back
    to what it was on entry and the exception propagates. *)
Definition atomic {A : Type} (body : M A) : M A :=
  λ w,
    match body w with
    | (Return a, w') => (Return a, w')
    | (Raise e, w') => (Raise e, {| db := db w; queue := queue w' |})
    end.

(** [data[key]] on a dict. *)
Definition getitem (data : gmap string string) (key : string) : M string :=
  match data !! key with
  | Some v => mret v
  | None => raise (KeyError key)
  end.

(** ** Collaborators

    What the views call and this file does not define: pulpcore, the REST
    framework, and the modules of the package next to the views. *)
Record Collaborators : Type := {
  (** [NamedModelViewSet.get_resource(uri, Artifact)]: the artifact a URI
      names; it raises when the URI names none. *)
  get_resource : string → result Artifact.t;
  (** [CookbookMetadata.from_cookbook_file(file_name, name)]: it raises
      [FileNotFoundError] when the archive holds no [name/metadata.json]. *)
  from_cookbook_file : string → string → result CookbookMetadata.t;
  (** The verdict of [CookbookPackageContentSerializer] on a payload: its
      error dict, [None] when the payload is valid. *)
  serializer_errors : gmap string string → option (list (string * list string));
  (** [CreateModelMixin.get_success_headers(data)]. *)
  get_success_headers : gmap string string → list (string * string);
  (** The field validation of [_RepositoryPublishURLSerializer], which
      resolves the hyperlinks of a request to model instances before
      [validate] runs. *)
  to_internal_value : gmap string string → result PublishData.t;
  (** [RepositoryVersion.latest(repository)]. *)
  latest : Repository.t → option RepositoryVersion.t;
  (** [self.get_object()] of the publisher viewset, for the [pk] of the URL. *)
  get_object : Pk → result CookbookPublisher.t;
  (** [str(pk)]. *)
  str : Pk → string
}.

(** ** Messages of the views, as the source spells them *)

Definition neither_specified : detail :=
  Message "Either the 'repository' or 'repository_version' need to be specified".

Definition both_specified : detail :=
  Message "Either the 'repository' or 'repository_version' need to be specified but not both.".

Definition no_version_available : detail :=
  Message "Repository has no version available to publish".

Definition artifact_required : detail := Field "artifact" "This field is required".

Definition name_required : detail := Field "name" "This field is required".

Definition no_metadata_found : detail :=
  Field "artifact" "No metadata.json found in cookbook tar".

Definition version_mismatch : detail :=
  Field "version" "version does not correspond to version in cookbook tar".

(** The two errors of a publish request that names no target or two. *)
Definition is_ambiguous_target {A : Type} (r : result A) : bool :=
  match r with
  | Raise (ValidationError d) =>
      bool_decide (d = neither_specified) || bool_decide (d = both_specified)
  | _ => false
  end.

Section Views.

Variable pulp : Collaborators.

(** ** [_RepositoryPublishURLSerializer.validate] *)

Definition validate (data : PublishData.t) : result PublishData.t :=
  let repository := PublishData.repository data in
  let repository_version := PublishData.repository_version data in
  if negb (truthy repository) && negb (truthy repository_version) then
    Raise (ValidationError neither_specified)
  else if negb (truthy repository) && truthy repository_version then
    Return data
  else if truthy repository && negb (truthy repository_version) then
    (* [RepositoryVersion.latest(repository)], on the instance found above *)
    let version := repository ≫= latest pulp in
    if truthy version then
      let new_data :=
        {| PublishData.repository := None;
           PublishData.repository_version := version |} in
      Return (PublishData.update new_data data)
    else
      Raise (ValidationError no_version_available)
  else
    Raise (ValidationError both_specified).

(** ** [CookbookPackageContentViewSet.create] *)

(** Modelled from the spec: [CookbookPackageContentSerializer], declared in
    [pulp_cookbook/app/serializers.py].  [is_valid(raise_exception=True)]
    raises the serializer's error dict; accepted data keeps the declared
    [name] and [version] as they were given. *)
Definition is_valid (data : gmap string string) : M (gmap string string) :=
  match serializer_errors pulp data with
  | Some errors => raise (ValidationError (SerializerErrors errors))
  | None => mret data
  end.

(** Modelled from the spec: [serializer.save(dependencies=...)], which
    builds the content record from the validated data and the keyword
    arguments and inserts it into the content table. *)
Definition save (validated_data : gmap string string)
    (dependencies : gmap string string) : M CookbookPackageContent.t :=
  λ w,
    let instance :=
      {| CookbookPackageContent.pk := N.of_nat (length (content (db w)));
         CookbookPackageContent.name := default "" (validated_data !! "name");
         CookbookPackageContent.version := default "" (validated_data !! "version");
         CookbookPackageContent.dependencies := dependencies |} in
    (Return instance,
     {| db := {| content := content (db w) ++ [instance];
                 content_artifact := content_artifact (db w) |};
        queue := queue w |}).

(** Modelled from the spec: the setter behind [content.artifact = artifact],
    which binds the artifact to the saved content unit. *)
Definition set_artifact (instance : CookbookPackageContent.t)
    (artifact : Artifact.t) : M unit :=
  λ w,
    let row :=
      {| ContentArtifact.content := CookbookPackageContent.pk instance;
         ContentArtifact.artifact := artifact |} in
    (Return (),
     {| db := {| content := content (db w);
                 content_artifact := content_artifact (db w) ++ [row] |};
        queue := queue w |}).

(** The body of [create], before the decorator.  [data] is [request.data]
    itself: the assignment to [data['version']] is seen by
    [get_success_headers(request.data)]. *)
Definition create_body (request_data : gmap string string) : M Response.t :=
  let data := request_data in
  artifact ←
    try_except
      (uri ← getitem data "artifact"; lift (get_resource pulp uri))
      (λ e, match e with
            | KeyError _ => Some (raise (ValidationError artifact_required))
            | _ => None
            end);
  metadata ←
    try_except
      (name ← getitem data "name";
       lift (from_cookbook_file pulp (Artifact.file_name artifact) name))
      (λ e, match e with
            | KeyError _ => Some (raise (ValidationError name_required))
            | FileNotFoundError => Some (raise (ValidationError no_metadata_found))
            | _ => None
            end);
  try_except
    (version ← getitem data "version";
     if decide (version ≠ CookbookMetadata.version metadata)
     then raise (ValidationError version_mismatch)
     else mret ())
    (λ e, match e with
          | KeyError _ => Some (mret ())
          | _ => None
          end);;
  let data := <["version" := CookbookMetadata.version metadata]> data in
  validated_data ← is_valid data;
  instance ← save validated_data (CookbookMetadata.dependencies metadata);
  set_artifact instance artifact;;
  let headers := get_success_headers pulp data in
  mret {| Response.data := instance;
          Response.status := HTTP_201_CREATED;
          Response.headers := headers |}.

Definition create (request_data : gmap string string) : M Response.t :=
  atomic (create_body request_data).

(** ** [CookbookPublisherViewSet.publish] *)

(** Modelled from the spec: [tasks.publish.apply_async_with_reservation],
    which queues the task behind the reservations of its resources and
    answers with the handle of the queued task. *)
Definition apply_async_with_reservation (task_name : string)
    (resources : list Resource) (kwargs : gmap string string) : M nat :=
  λ w,
    let task :=
      {| Task.task_name := task_name;
         Task.resources := resources;
         Task.kwargs := kwargs |} in
    (Return (length (queue w)), {| db := db w; queue := queue w ++ [task] |}).

(** [serializer.is_valid(raise_exception=True)] of the publish serializer:
    the fields first, then [validate]. *)
Definition publish_is_valid (request_data : gmap string string) : result PublishData.t :=
  match to_internal_value pulp request_data with
  | Return data => validate data
  | Raise e => Raise e
  end.

Definition publish (request_data : gmap string string) (pk : Pk)
    : M OperationPostponedResponse.t :=
  publisher ← lift (get_object pulp pk);
  validated_data ← lift (publish_is_valid request_data);
  match PublishData.repository_version validated_data with
  | None =>
      (* [repository_version.repository] on [None] *)
      raise (AttributeError "'NoneType' object has no attribute 'repository'")
  | Some repository_version =>
      result ←
        apply_async_with_reservation "publish"
          [RepositoryResource (RepositoryVersion.repository repository_version);
           PublisherResource publisher]
          {[ "publisher_pk" := str pulp (CookbookPublisher.pk publisher);
             "repository_version_pk" :=
               str pulp (RepositoryVersion.pk repository_version) ]};
      mret {| OperationPostponedResponse.task_id := result |}
  end.

End Views.

Arguments validate pulp data : simpl never.

(** The task [publish] queues for a publisher and a repository version. *)
Definition publish_task (pulp : Collaborators)
    (publisher : CookbookPublisher.t) (rv : RepositoryVersion.t) : Task.t :=
  {| Task.task_name := "publish";
     Task.resources :=
       [RepositoryResource (RepositoryVersion.repository rv);
        PublisherResource publisher];
     Task.kwargs :=
       {[ "publisher_pk" := str pulp (CookbookPublisher.pk publisher);
          "repository_version_pk" := str pulp (RepositoryVersion.pk rv) ]} |}.

(** The record [create] stores for a payload, once the artifact and its
    metadata are known. *)
Definition admitted (data : gmap string string) (metadata : CookbookMetadata.t)
    (w : World) : CookbookPackageContent.t :=
  {| CookbookPackageContent.pk := N.of_nat (length (content (db w)));
     CookbookPackageContent.name := default "" (data !! "name");
     CookbookPackageContent.version := CookbookMetadata.version metadata;
     CookbookPackageContent.dependencies := CookbookMetadata.dependencies metadata |}.

(** ** A concrete installation

    One artifact holding the cookbook [mycookbook] 1.2.0, a repository with
    three versions, a repository with none, and one publisher. *)
Module Fixture.

Definition artifact : Artifact.t :=
  {| Artifact.pk := 11%N; Artifact.file_name := "artifact/6f/1ed002ab5595859014ebf0951522d9" |}.

Definition metadata : CookbookMetadata.t :=
  {| CookbookMetadata.version := "1.2.0";
     CookbookMetadata.dependencies := {[ "other" := ">=1.0" ]} |}.

Definition R : Repository.t := {| Repository.pk := 1%N |}.
Definition R_empty : Repository.t := {| Repository.pk := 2%N |}.

Definition v (n : N) : RepositoryVersion.t :=
  {| RepositoryVersion.pk := (100 + n)%N;
     RepositoryVersion.repository := R;
     RepositoryVersion.number := n |}.

Definition versions (r : Repository.t) : list RepositoryVersion.t :=
  if decide (Repository.pk r = 1)%N then [v 1%N; v 2%N; v 3%N] else [].

Definition publisher : CookbookPublisher.t := {| CookbookPublisher.pk := 7%N |}.

Definition not_found (uri : string) : exn :=
  ValidationError (Message ("URI not valid: " ++ uri)).

Definition pulp : Collaborators :=
  {| get_resource uri :=
       if decide (uri = "/pulp/api/v3/artifacts/11/") then Return artifact
       else Raise (not_found uri);
     from_cookbook_file file_name name :=
       if decide (file_name = Artifact.file_name artifact ∧ name = "mycookbook")
       then Return metadata
       else Raise FileNotFoundError;
     serializer_errors data :=
       if decide (data !! "name" = Some "")
       then Some [("name", ["This field may not be blank."])]
       else None;
     get_success_headers data := [];
     to_internal_value data :=
       Return
         {| PublishData.repository :=
              match data !! "repository" with
              | Some "/pulp/api/v3/repositories/1/" => Some R
              | Some _ => Some R_empty
              | None => None
              end;
            PublishData.repository_version :=
              match data !! "repository_version" with
              | Some _ => Some (v 2%N)
              | None => None
              end |};
     latest r := last (versions r);
     get_object pk :=
       if decide (pk = 7)%N then Return publisher else Raise Http404;
     str pk := pretty pk |}.

Definition world : World :=
  {| db := {| content := []; content_artifact := [] |}; queue := [] |}.

(** The admission request of the package documentation: an artifact and a
    name, no version. *)
Definition request : gmap string string :=
  {[ "artifact" := "/pulp/api/v3/artifacts/11/"; "name" := "mycookbook" ]}.

Definition created : CookbookPackageContent.t :=
  {| CookbookPackageContent.pk := 0%N;
     CookbookPackageContent.name := "mycookbook";
     CookbookPackageContent.version := "1.2.0";
     CookbookPackageContent.dependencies := {[ "other" := ">=1.0" ]} |}.

Definition response : Response.t :=
  {| Response.data := created;
     Response.status := 201%N;
     Response.headers := [] |}.

Definition world_after : World :=
  {| db := {| content := [created];
              content_artifact :=
                [{| ContentArtifact.content := 0%N;
                    ContentArtifact.artifact := artifact |}] |};
     queue := [] |}.

End Fixture.

(** Every content unit of the database has a row binding it to an artifact. *)
Definition every_content_bound (d : Database) : Prop :=
  Forall
    (λ c, Exists
            (λ row, ContentArtifact.content row = CookbookPackageContent.pk c)
            (content_artifact d))
    (content d).

#[global] Instance every_content_bound_dec d : Decision (every_content_bound d).
Proof. unfold every_content_bound. apply _. Defined.

(** ** Installations whose collaborators fail

    Each one is [Fixture.pulp] with one collaborator replaced. *)
Module Faulty.


(** The resolver of artifact references fails with a [KeyError] of its own. *)
Definition resolver_key_error : Collaborators :=
  {| get_resource uri := Raise (KeyError "pk");
     from_cookbook_file := from_cookbook_file Fixture.pulp;
     serializer_errors := serializer_errors Fixture.pulp;
     get_success_headers := get_success_headers Fixture.pulp;
     to_internal_value := to_internal_value Fixture.pulp;
     latest := latest Fixture.pulp;
     get_object := get_object Fixture.pulp;
     str := str Fixture.pulp |}.

(** The extraction fails with a [KeyError] of its own. *)
Definition extraction_key_error : Collaborators :=
  {| get_resource := get_resource Fixture.pulp;
     from_cookbook_file file_name name := Raise (KeyError "version");
     serializer_errors := serializer_errors Fixture.pulp;
     get_success_headers := get_success_headers Fixture.pulp;
     to_internal_value := to_internal_value Fixture.pulp;
     latest := latest Fixture.pulp;
     get_object := get_object Fixture.pulp;
     str := str Fixture.pulp |}.

(** The artifact is not a tar archive. *)
Definition unreadable : Collaborators :=
  {| get_resource := get_resource Fixture.pulp;
     from_cookbook_file file_name name := Raise (OtherException "tarfile.ReadError");
     serializer_errors := serializer_errors Fixture.pulp;
     get_success_headers := get_success_headers Fixture.pulp;
     to_internal_value := to_internal_value Fixture.pulp;
     latest := latest Fixture.pulp;
     get_object := get_object Fixture.pulp;
     str := str Fixture.pulp |}.

End Faulty.

(** Unfolds a view down to the steps of the monad. *)
Ltac run_view :=
  unfold create, atomic, create_body, try_except, getitem, is_valid, save,
    set_artifact, lift, raise, mbind, M_bind, mret, M_ret.

(** ** The monad of views *)

Section Monad.

Context {A : Type}.

Lemma try_except_Return (body : M A) handler w a w' :
  body w = (Return a, w') → try_except body handler w = (Return a, w').
Proof. intros H. unfold try_except. by rewrite H. Qed.

Lemma try_except_uncaught (body : M A) handler w e w' :
  body w = (Raise e, w') → handler e = None →
  try_except body handler w = (Raise e, w').
Proof. intros H Hh. unfold try_except. by rewrite H, Hh. Qed.

(** A transaction that raises leaves the database as it found it, whatever
    its body had written. *)
Lemma atomic_Raise_db (body : M A) w e w' :
  atomic body w = (Raise e, w') → db w' = db w.
Proof.
  unfold atomic. intros H.
  destruct (body w) as [[a|e'] w'']; by simplify_eq.
Qed.

(** A transaction that returns is its body. *)
Lemma atomic_Return (body : M A) w a w' :
  atomic body w = (Return a, w') ↔ body w = (Return a, w').
Proof.
  unfold atomic. destruct (body w) as [[a'|e'] w'']; split; intros H; by simplify_eq.
Qed.

End Monad.

(** ** The publish-target resolver *)

Section Resolver.

Variable pulp : Collaborators.

Lemma validate_neither (data : PublishData.t) :
  PublishData.repository data = None →
  PublishData.repository_version data = None →
  validate pulp data = Raise (ValidationError neither_specified).
Proof. intros Hr Hv. unfold validate. by rewrite Hr, Hv. Qed.

Lemma validate_both (data : PublishData.t) r rv :
  PublishData.repository data = Some r →
  PublishData.repository_version data = Some rv →
  validate pulp data = Raise (ValidationError both_specified).
Proof. intros Hr Hv. unfold validate. by rewrite Hr, Hv. Qed.

Lemma validate_version (data : PublishData.t) rv :
  PublishData.repository data = None →
  PublishData.repository_version data = Some rv →
  validate pulp data = Return data.
Proof. intros Hr Hv. unfold validate. by rewrite Hr, Hv. Qed.

Lemma validate_repository (data : PublishData.t) r :
  PublishData.repository data = Some r →
  PublishData.repository_version data = None →
  validate pulp data =
    match latest pulp r with
    | Some version =>
        Return {| PublishData.repository := Some r;
                  PublishData.repository_version := Some version |}
    | None => Raise (ValidationError no_version_available)
    end.
Proof.
  intros Hr Hv. unfold validate. rewrite Hr, Hv. simpl.
  destruct (latest pulp r) as [version|]; simpl; [|done].
  unfold PublishData.update. simpl. by rewrite Hr, Hv.
Qed.

(** Whatever [validate] returns binds ['repository_version']. *)
Lemma validate_Return (data validated : PublishData.t) :
  validate pulp data = Return validated →
  ∃ rv, PublishData.repository_version validated = Some rv.
Proof.
  destruct data as [[r|] [rv|]]; intros H.
  - by erewrite validate_both in H.
  - erewrite validate_repository in H by done.
    destruct (latest pulp r) as [version|]; simplify_eq. by exists version.
  - erewrite validate_version in H by done. simplify_eq. by exists rv.
  - by erewrite validate_neither in H.
Qed.

End Resolver.

(** C4. The resolver raises one of the two ambiguous-target errors exactly
    when the request does not name exactly one target: with neither
    [repository] nor [repository_version] it raises the "need to be
    specified" error, with both it raises the "but not both" error, and with
    exactly one of them its outcome is neither of these two errors. *)
Theorem validate_ambiguous_target (pulp : Collaborators) (data : PublishData.t) :
  match PublishData.repository data, PublishData.repository_version data with
  | None, None => validate pulp data = Raise (ValidationError neither_specified)
  | Some _, Some _ => validate pulp data = Raise (ValidationError both_specified)
  | _, _ => is_ambiguous_target (validate pulp data) = false
  end.
Proof.
  destruct (PublishData.repository data) as [r|] eqn:Hr,
    (PublishData.repository_version data) as [rv|] eqn:Hv.
  - by eapply validate_both.
  - rewrite (validate_repository pulp data r Hr Hv).
    by destruct (latest pulp r).
  - by rewrite (validate_version pulp data rv Hr Hv).
  - by apply validate_neither.
Qed.

(** C5. A request that names only [repository_version] is accepted and its
    data is returned as it is, so the version handed on is the one the
    request named; this holds whatever the collaborators are, in particular
    whatever [RepositoryVersion.latest] would answer. *)
Theorem validate_repository_version_only
    (pulp : Collaborators) (data : PublishData.t) (rv : RepositoryVersion.t) :
  PublishData.repository data = None →
  PublishData.repository_version data = Some rv →
  validate pulp data = Return data ∧
  ∀ other : Collaborators, validate other data = validate pulp data.
Proof.
  intros Hr Hv. split; [by eapply validate_version|].
  intros other. by rewrite !(validate_version _ data rv Hr Hv).
Qed.

Lemma validate_repository_version_only_witness :
  validate Fixture.pulp
    {| PublishData.repository := None;
       PublishData.repository_version := Some (Fixture.v 2%N) |}
  = Return {| PublishData.repository := None;
              PublishData.repository_version := Some (Fixture.v 2%N) |}.
Proof.
  apply (validate_repository_version_only Fixture.pulp _ (Fixture.v 2%N));
    reflexivity.
Defined.

(** C6. A request that names only [repository] is resolved through
    [RepositoryVersion.latest]: when it finds a version, the returned data
    binds ['repository_version'] to that version (and keeps the repository);
    when the repository has no version, the "no version available" error is
    raised. *)
Theorem validate_repository_only
    (pulp : Collaborators) (data : PublishData.t) (r : Repository.t) :
  PublishData.repository data = Some r →
  PublishData.repository_version data = None →
  match latest pulp r with
  | Some version =>
      validate pulp data =
        Return {| PublishData.repository := Some r;
                  PublishData.repository_version := Some version |}
  | None => validate pulp data = Raise (ValidationError no_version_available)
  end.
Proof.
  intros Hr Hv. rewrite (validate_repository pulp data r Hr Hv).
  by destruct (latest pulp r).
Qed.

Lemma validate_repository_only_witness :
  validate Fixture.pulp
    {| PublishData.repository := Some Fixture.R;
       PublishData.repository_version := None |}
  = Return {| PublishData.repository := Some Fixture.R;
              PublishData.repository_version := Some (Fixture.v 3%N) |}
  ∧
  validate Fixture.pulp
    {| PublishData.repository := Some Fixture.R_empty;
       PublishData.repository_version := None |}
  = Raise (ValidationError no_version_available).
Proof.
  split.
  - apply (validate_repository_only Fixture.pulp _ Fixture.R); reflexivity.
  - apply (validate_repository_only Fixture.pulp _ Fixture.R_empty); reflexivity.
Defined.

(** ** The publish dispatcher *)

Lemma publish_is_valid_Return pulp request_data validated :
  publish_is_valid pulp request_data = Return validated →
  ∃ rv, PublishData.repository_version validated = Some rv.
Proof.
  unfold publish_is_valid.
  destruct (to_internal_value pulp request_data) as [data|e]; [|done].
  apply validate_Return.
Qed.

Lemma publish_run pulp request_data pk publisher validated rv w :
  get_object pulp pk = Return publisher →
  publish_is_valid pulp request_data = Return validated →
  PublishData.repository_version validated = Some rv →
  publish pulp request_data pk w =
    (Return {| OperationPostponedResponse.task_id := length (queue w) |},
     {| db := db w; queue := queue w ++ [publish_task pulp publisher rv] |}).
Proof.
  intros Hobj Hvalid Hrv.
  unfold publish, mbind, M_bind, lift. rewrite Hobj, Hvalid, Hrv. reflexivity.
Qed.

(** C8. When the publisher is found and the request resolves to a repository
    version, [publish] appends exactly one task to the queue: the task
    [publish], reserved on the list made of the repository owning that
    version followed by the publisher, with the keyword arguments
    [publisher_pk] and [repository_version_pk] bound to the strings [str]
    gives for the two primary keys.  The database is not touched. *)
Theorem publish_enqueues_reserved_task
    (pulp : Collaborators) (request_data : gmap string string) (pk : Pk)
    (publisher : CookbookPublisher.t) (validated : PublishData.t) (w : World) :
  get_object pulp pk = Return publisher →
  publish_is_valid pulp request_data = Return validated →
  ∃ rv : RepositoryVersion.t,
    PublishData.repository_version validated = Some rv ∧
    snd (publish pulp request_data pk w) =
      {| db := db w;
         queue := queue w ++
           [{| Task.task_name := "publish";
               Task.resources :=
                 [RepositoryResource (RepositoryVersion.repository rv);
                  PublisherResource publisher];
               Task.kwargs :=
                 {[ "publisher_pk" := str pulp (CookbookPublisher.pk publisher);
                    "repository_version_pk" := str pulp (RepositoryVersion.pk rv) ]}
             |}] |} ∧
    fst (publish pulp request_data pk w) =
      Return {| OperationPostponedResponse.task_id := length (queue w) |}.
Proof.
  intros Hobj Hvalid.
  destruct (publish_is_valid_Return _ _ _ Hvalid) as [rv Hrv].
  exists rv. split; [done|].
  by rewrite (publish_run _ _ _ _ _ _ w Hobj Hvalid Hrv).
Qed.

Lemma publish_enqueues_reserved_task_witness :
  ∃ rv : RepositoryVersion.t,
    rv = Fixture.v 3%N ∧
    snd (publish Fixture.pulp {[ "repository" := "/pulp/api/v3/repositories/1/" ]}
           7%N Fixture.world) =
      {| db := db Fixture.world;
         queue :=
           [{| Task.task_name := "publish";
               Task.resources :=
                 [RepositoryResource Fixture.R; PublisherResource Fixture.publisher];
               Task.kwargs :=
                 {[ "publisher_pk" := "7"; "repository_version_pk" := "103" ]} |}] |}.
Proof.
  destruct (publish_enqueues_reserved_task Fixture.pulp
              {[ "repository" := "/pulp/api/v3/repositories/1/" ]} 7%N
              Fixture.publisher
              {| PublishData.repository := Some Fixture.R;
                 PublishData.repository_version := Some (Fixture.v 3%N) |}
              Fixture.world) as (rv & Hrv & Hworld & _);
    [vm_compute; reflexivity..|].
  exists rv. split; [by injection Hrv|].
  rewrite Hworld. injection Hrv as <-. vm_compute. reflexivity.
Defined.

(** C10. Whenever the validation of a publish request succeeds, the
    validated data binds ['repository_version'] to a repository version: the
    one the request named, or, for a request naming only a repository, the
    latest version of that repository, which [validate] put into the data it
    returns.  Hence [publish], once the publisher is found, reads the
    repository and the primary key of an actual version: it never raises the
    [AttributeError] of an attribute access on [None] and returns the handle
    of the queued task. *)
Theorem validated_data_has_repository_version
    (pulp : Collaborators) (request_data : gmap string string)
    (data validated : PublishData.t) :
  to_internal_value pulp request_data = Return data →
  validate pulp data = Return validated →
  ∃ rv : RepositoryVersion.t,
    PublishData.repository_version validated = Some rv ∧
    match PublishData.repository_version data with
    | Some named => rv = named
    | None => PublishData.repository data ≫= latest pulp = Some rv
    end ∧
    ∀ (pk : Pk) (publisher : CookbookPublisher.t) (w : World),
      get_object pulp pk = Return publisher →
      fst (publish pulp request_data pk w) =
        Return {| OperationPostponedResponse.task_id := length (queue w) |}.
Proof.
  intros Hfields Hvalidate.
  destruct (validate_Return _ _ _ Hvalidate) as [rv Hrv].
  exists rv. split; [done|]. split.
  - destruct data as [[r|] [named|]]; simpl.
    + by erewrite validate_both in Hvalidate.
    + erewrite validate_repository in Hvalidate by done.
      destruct (latest pulp r); by simplify_eq/=.
    + erewrite validate_version in Hvalidate by done. by simplify_eq/=.
    + by erewrite validate_neither in Hvalidate.
  - intros pk publisher w Hobj.
    assert (publish_is_valid pulp request_data = Return validated) as Hvalid.
    { unfold publish_is_valid. by rewrite Hfields. }
    by rewrite (publish_run _ _ _ _ _ _ w Hobj Hvalid Hrv).
Qed.

Lemma validated_data_has_repository_version_witness :
  ∃ rv : RepositoryVersion.t,
    rv = Fixture.v 3%N ∧
    fst (publish Fixture.pulp {[ "repository" := "/pulp/api/v3/repositories/1/" ]}
           7%N Fixture.world) =
      Return {| OperationPostponedResponse.task_id := 0 |}.
Proof.
  destruct (validated_data_has_repository_version Fixture.pulp
              {[ "repository" := "/pulp/api/v3/repositories/1/" ]}
              {| PublishData.repository := Some Fixture.R;
                 PublishData.repository_version := None |}
              {| PublishData.repository := Some Fixture.R;
                 PublishData.repository_version := Some (Fixture.v 3%N) |}
           ) as (rv & Hrv & _ & Hpublish); [vm_compute; reflexivity..|].
  exists rv. split; [by injection Hrv|].
  apply (Hpublish 7%N Fixture.publisher Fixture.world). reflexivity.
Defined.

(** ** Content admission *)

Section Admission.

Variable pulp : Collaborators.

Lemma create_body_no_artifact data w :
  data !! "artifact" = None →
  create_body pulp data w = (Raise (ValidationError artifact_required), w).
Proof. intros H. run_view. by rewrite H. Qed.

Lemma create_body_no_name data uri artifact w :
  data !! "artifact" = Some uri →
  get_resource pulp uri = Return artifact →
  data !! "name" = None →
  create_body pulp data w = (Raise (ValidationError name_required), w).
Proof. intros Ha Hres Hn. run_view. by rewrite Ha, Hres, Hn. Qed.

Lemma create_body_no_metadata data uri artifact name w :
  data !! "artifact" = Some uri →
  get_resource pulp uri = Return artifact →
  data !! "name" = Some name →
  from_cookbook_file pulp (Artifact.file_name artifact) name = Raise FileNotFoundError →
  create_body pulp data w = (Raise (ValidationError no_metadata_found), w).
Proof. intros Ha Hres Hn Hm. run_view. by rewrite Ha, Hres, Hn, Hm. Qed.

Lemma create_body_mismatch data uri artifact name metadata version w :
  data !! "artifact" = Some uri →
  get_resource pulp uri = Return artifact →
  data !! "name" = Some name →
  from_cookbook_file pulp (Artifact.file_name artifact) name = Return metadata →
  data !! "version" = Some version →
  version ≠ CookbookMetadata.version metadata →
  create_body pulp data w = (Raise (ValidationError version_mismatch), w).
Proof.
  intros Ha Hres Hn Hm Hv Hne. run_view. rewrite Ha, Hres, Hn, Hm, Hv.
  by rewrite decide_True.
Qed.

(** Past the version check, the outcome is the serializer's. *)
Lemma create_body_checked data uri artifact name metadata w :
  data !! "artifact" = Some uri →
  get_resource pulp uri = Return artifact →
  data !! "name" = Some name →
  from_cookbook_file pulp (Artifact.file_name artifact) name = Return metadata →
  data !! "version" = None ∨
    data !! "version" = Some (CookbookMetadata.version metadata) →
  create_body pulp data w =
    let data' := <["version" := CookbookMetadata.version metadata]> data in
    match serializer_errors pulp data' with
    | Some errors => (Raise (ValidationError (SerializerErrors errors)), w)
    | None =>
        let instance := admitted data metadata w in
        (Return {| Response.data := instance;
                   Response.status := HTTP_201_CREATED;
                   Response.headers := get_success_headers pulp data' |},
         {| db :=
              {| content := content (db w) ++ [instance];
                 content_artifact :=
                   content_artifact (db w) ++
                     [{| ContentArtifact.content := CookbookPackageContent.pk instance;
                         ContentArtifact.artifact := artifact |}] |};
            queue := queue w |})
    end.
Proof.
  intros Ha Hres Hn Hm Hv. run_view. rewrite Ha, Hres, Hn, Hm.
  destruct Hv as [Hv|Hv]; rewrite Hv; simpl.
  all: try rewrite decide_False by (intros ?; done).
  all: destruct (serializer_errors pulp _) as [errors|]; simpl; [done|].
  all: unfold admitted; rewrite lookup_insert_eq, lookup_insert_ne by done.
  all: rewrite Hn; reflexivity.
Qed.

(** The body raises only before its first write. *)
Lemma create_body_Raise data w e w' :
  create_body pulp data w = (Raise e, w') → w' = w.
Proof.
  run_view. intros H.
  repeat (case_match; simplify_eq/=); done.
Qed.

(** A returning body went through every step. *)
Lemma create_body_Return data w response w' :
  create_body pulp data w = (Return response, w') →
  ∃ uri artifact name metadata,
    data !! "artifact" = Some uri ∧
    get_resource pulp uri = Return artifact ∧
    data !! "name" = Some name ∧
    from_cookbook_file pulp (Artifact.file_name artifact) name = Return metadata ∧
    (data !! "version" = None ∨
     data !! "version" = Some (CookbookMetadata.version metadata)) ∧
    serializer_errors pulp (<["version" := CookbookMetadata.version metadata]> data) = None.
Proof.
  run_view. intros H.
  destruct (data !! "artifact") as [uri|] eqn:Ha; simpl in H; [|done].
  destruct (get_resource pulp uri) as [artifact|e] eqn:Hres; simpl in H;
    [|by destruct e].
  destruct (data !! "name") as [name|] eqn:Hn; simpl in H; [|done].
  destruct (from_cookbook_file pulp (Artifact.file_name artifact) name)
    as [metadata|e] eqn:Hm; simpl in H; [|by destruct e].
  exists uri, artifact, name, metadata. repeat split; try done.
  - destruct (data !! "version") as [version|]; [|by left]. right.
    simpl in H. destruct (decide (version ≠ _)) as [|Heq]; [done|].
    f_equal. by destruct (decide (version = CookbookMetadata.version metadata)).
  - destruct (serializer_errors pulp _); [|done].
    repeat (case_match; simplify_eq/=).
Qed.

End Admission.

(** A body that raises without having written makes [create] raise the same
    exception in the same world. *)
Lemma create_Raise_of_body pulp data w e :
  create_body pulp data w = (Raise e, w) → create pulp data w = (Raise e, w).
Proof. intros H. unfold create, atomic. rewrite H. by destruct w. Qed.

Lemma create_Return_iff_body pulp data w response w' :
  create pulp data w = (Return response, w') ↔
  create_body pulp data w = (Return response, w').
Proof. apply atomic_Return. Qed.

(** The converse of the failures: a resolved artifact, extracted metadata,
    no declared version or the extracted one, and a payload the serializer
    accepts give the response 201 with the new record, which is stored and
    bound to the artifact. *)
Lemma create_accepts pulp data uri artifact name metadata w :
  data !! "artifact" = Some uri →
  get_resource pulp uri = Return artifact →
  data !! "name" = Some name →
  from_cookbook_file pulp (Artifact.file_name artifact) name = Return metadata →
  data !! "version" = None ∨
    data !! "version" = Some (CookbookMetadata.version metadata) →
  serializer_errors pulp (<["version" := CookbookMetadata.version metadata]> data) = None →
  create pulp data w =
    (Return {| Response.data := admitted data metadata w;
               Response.status := HTTP_201_CREATED;
               Response.headers :=
                 get_success_headers pulp
                   (<["version" := CookbookMetadata.version metadata]> data) |},
     {| db :=
          {| content := content (db w) ++ [admitted data metadata w];
             content_artifact :=
               content_artifact (db w) ++
                 [{| ContentArtifact.content :=
                       CookbookPackageContent.pk (admitted data metadata w);
                     ContentArtifact.artifact := artifact |}] |};
        queue := queue w |}).
Proof.
  intros Ha Hres Hn Hm Hv Hser. apply create_Return_iff_body.
  rewrite (create_body_checked pulp data uri artifact name metadata w) by done.
  simpl. by rewrite Hser.
Qed.

(** The request of the package documentation is admitted as version 1.2.0
    with its one dependency. *)
Example create_mycookbook :
  create Fixture.pulp Fixture.request Fixture.world
  = (Return Fixture.response, Fixture.world_after).
Proof. vm_compute. reflexivity. Qed.

(** Declaring the extracted version changes nothing. *)
Example create_mycookbook_declared :
  create Fixture.pulp (<["version" := "1.2.0"]> Fixture.request) Fixture.world
  = (Return Fixture.response, Fixture.world_after).
Proof. vm_compute. reflexivity. Qed.

(** After a version mismatch, the corrected request is admitted. *)
Example create_retry :
  let (outcome, w) :=
    create Fixture.pulp (<["version" := "1.1.0"]> Fixture.request) Fixture.world in
  outcome = Raise (ValidationError version_mismatch) ∧
  create Fixture.pulp (<["version" := "1.2.0"]> Fixture.request) w
  = (Return Fixture.response, Fixture.world_after).
Proof. vm_compute. split; reflexivity. Qed.

(** C1. Whenever [create] returns, the artifact was resolved, its metadata
    was extracted, and the caller had declared no [version] or the extracted
    one; the payload the serializer accepted is the request with [version]
    set to the extracted version; the record of the response, which is the
    record appended to the content table and bound to the artifact, has the
    version and exactly the dependencies of the extracted metadata, and the
    name of the request. *)
Theorem create_uses_extracted_metadata
    (pulp : Collaborators) (data : gmap string string) (w w' : World)
    (response : Response.t) :
  create pulp data w = (Return response, w') →
  ∃ uri artifact name metadata,
    data !! "artifact" = Some uri ∧
    get_resource pulp uri = Return artifact ∧
    data !! "name" = Some name ∧
    from_cookbook_file pulp (Artifact.file_name artifact) name = Return metadata ∧
    (data !! "version" = None ∨
     data !! "version" = Some (CookbookMetadata.version metadata)) ∧
    serializer_errors pulp (<["version" := CookbookMetadata.version metadata]> data)
      = None ∧
    CookbookPackageContent.version (Response.data response)
      = CookbookMetadata.version metadata ∧
    CookbookPackageContent.dependencies (Response.data response)
      = CookbookMetadata.dependencies metadata ∧
    CookbookPackageContent.name (Response.data response) = name ∧
    content (db w') = (content (db w) ++ [Response.data response])%list ∧
    content_artifact (db w') =
      (content_artifact (db w) ++
         [{| ContentArtifact.content :=
               CookbookPackageContent.pk (Response.data response);
             ContentArtifact.artifact := artifact |}])%list.
Proof.
  intros H. apply create_Return_iff_body in H.
  destruct (create_body_Return _ _ _ _ _ H)
    as (uri & artifact & name & metadata & Ha & Hres & Hn & Hm & Hv & Hser).
  exists uri, artifact, name, metadata.
  rewrite (create_body_checked pulp data uri artifact name metadata w) in H by done.
  simpl in H. rewrite Hser in H. simplify_eq/=. by rewrite Hn.
Qed.

Lemma create_uses_extracted_metadata_witness :
  ∃ response w' metadata,
    create Fixture.pulp Fixture.request Fixture.world = (Return response, w') ∧
    from_cookbook_file Fixture.pulp (Artifact.file_name Fixture.artifact) "mycookbook"
      = Return metadata ∧
    CookbookPackageContent.version (Response.data response)
      = CookbookMetadata.version metadata ∧
    CookbookPackageContent.dependencies (Response.data response)
      = CookbookMetadata.dependencies metadata.
Proof.
  assert (create Fixture.pulp Fixture.request Fixture.world
          = (Return Fixture.response, Fixture.world_after)) as Hrun
    by (vm_compute; reflexivity).
  destruct (create_uses_extracted_metadata _ _ _ _ _ Hrun)
    as (uri & artifact & name & metadata & Ha & Hres & Hn & Hm & _ & _ & Hv & Hd & _).
  exists Fixture.response, Fixture.world_after, metadata.
  vm_compute in Ha. injection Ha as <-.
  vm_compute in Hres. injection Hres as <-.
  vm_compute in Hn. injection Hn as <-.
  auto.
Defined.

(** C2. Once the artifact is resolved and its metadata extracted: a declared
    [version] different from the extracted one makes [create] raise the
    version-mismatch error on the field [version] and leaves the world as it
    was; with no [version] in the request, [create] does not raise that
    error. *)
Theorem create_version_mismatch
    (pulp : Collaborators) (data : gmap string string) (uri name : string)
    (artifact : Artifact.t) (metadata : CookbookMetadata.t) (w : World) :
  data !! "artifact" = Some uri →
  get_resource pulp uri = Return artifact →
  data !! "name" = Some name →
  from_cookbook_file pulp (Artifact.file_name artifact) name = Return metadata →
  (∀ version : string,
     data !! "version" = Some version →
     version ≠ CookbookMetadata.version metadata →
     create pulp data w = (Raise (ValidationError version_mismatch), w)) ∧
  (data !! "version" = None →
   fst (create pulp data w) ≠ Raise (ValidationError version_mismatch)).
Proof.
  intros Ha Hres Hn Hm. split.
  - intros version Hv Hne.
    apply create_Raise_of_body. by eapply create_body_mismatch.
  - intros Hv. unfold create, atomic.
    rewrite (create_body_checked pulp data uri artifact name metadata w)
      by auto.
    simpl. by destruct (serializer_errors pulp _).
Qed.

Lemma create_version_mismatch_witness :
  create Fixture.pulp (<["version" := "1.1.0"]> Fixture.request) Fixture.world
  = (Raise (ValidationError version_mismatch), Fixture.world)
  ∧
  fst (create Fixture.pulp Fixture.request Fixture.world)
  ≠ Raise (ValidationError version_mismatch).
Proof.
  split.
  - destruct (create_version_mismatch Fixture.pulp
                (<["version" := "1.1.0"]> Fixture.request)
                "/pulp/api/v3/artifacts/11/" "mycookbook"
                Fixture.artifact Fixture.metadata Fixture.world)
      as [Hmismatch _]; [vm_compute; reflexivity..|].
    apply (Hmismatch "1.1.0"); [vm_compute; reflexivity | discriminate].
  - destruct (create_version_mismatch Fixture.pulp Fixture.request
                "/pulp/api/v3/artifacts/11/" "mycookbook"
                Fixture.artifact Fixture.metadata Fixture.world)
      as [_ Hskipped]; [vm_compute; reflexivity..|].
    apply Hskipped. vm_compute; reflexivity.
Defined.

(** C3. Whenever [create] raises, whatever the failing step, the world
    after the call is the world before it: no content record and no artifact
    binding is left, and the task queue is as it was.  Moreover the body
    itself had raised before writing anything, so the transaction had
    nothing to undo. *)
Theorem create_all_or_nothing
    (pulp : Collaborators) (data : gmap string string) (w w' : World) (e : exn) :
  create pulp data w = (Raise e, w') →
  w' = w ∧ create_body pulp data w = (Raise e, w).
Proof.
  unfold create, atomic. intros H.
  destruct (create_body pulp data w) as [[a|e'] w''] eqn:Hbody; [done|].
  pose proof (create_body_Raise _ _ _ _ _ Hbody) as ->.
  simplify_eq. by destruct w.
Qed.

Lemma create_all_or_nothing_witness :
  Fixture.world = Fixture.world ∧
  create_body Fixture.pulp (<["version" := "1.1.0"]> Fixture.request) Fixture.world
  = (Raise (ValidationError version_mismatch), Fixture.world).
Proof.
  apply (create_all_or_nothing Fixture.pulp
           (<["version" := "1.1.0"]> Fixture.request)
           Fixture.world Fixture.world).
  vm_compute. reflexivity.
Defined.


(** C7. When the artifact is resolved, the request carries a name, and the
    extraction raises [FileNotFoundError] (the archive holds no
    [metadata.json] under the declared name), [create] raises the validation
    error "No metadata.json found in cookbook tar" on the field [artifact],
    whatever else the request declares, and the world is as it was. *)
Theorem create_no_metadata
    (pulp : Collaborators) (data : gmap string string) (uri name : string)
    (artifact : Artifact.t) (w : World) :
  data !! "artifact" = Some uri →
  get_resource pulp uri = Return artifact →
  data !! "name" = Some name →
  from_cookbook_file pulp (Artifact.file_name artifact) name = Raise FileNotFoundError →
  create pulp data w = (Raise (ValidationError no_metadata_found), w).
Proof.
  intros Ha Hres Hn Hm. apply create_Raise_of_body.
  by eapply create_body_no_metadata.
Qed.

Lemma create_no_metadata_witness :
  create Fixture.pulp
    {[ "artifact" := "/pulp/api/v3/artifacts/11/"; "name" := "apache2";
       "version" := "1.2.0" ]}
    Fixture.world
  = (Raise (ValidationError (Field "artifact" "No metadata.json found in cookbook tar")),
     Fixture.world).
Proof.
  apply (create_no_metadata Fixture.pulp _ "/pulp/api/v3/artifacts/11/" "apache2"
           Fixture.artifact Fixture.world); vm_compute; reflexivity.
Defined.

(** C9, as amended.  A request without the key [artifact] fails with "This
    field is required" on [artifact], whether or not it has a [name]; a
    request whose [artifact] is resolved by [get_resource] and that has no
    [name] fails with "This field is required" on [name].  In both cases the
    world is as it was. *)
Theorem create_required_fields
    (pulp : Collaborators) (data : gmap string string) (w : World) :
  (data !! "artifact" = None →
   create pulp data w = (Raise (ValidationError artifact_required), w)) ∧
  (∀ (uri : string) (artifact : Artifact.t),
     data !! "artifact" = Some uri →
     get_resource pulp uri = Return artifact →
     data !! "name" = None →
     create pulp data w = (Raise (ValidationError name_required), w)).
Proof.
  split.
  - intros Ha. apply create_Raise_of_body. by apply create_body_no_artifact.
  - intros uri artifact Ha Hres Hn. apply create_Raise_of_body.
    by eapply create_body_no_name.
Qed.

Lemma create_required_fields_witness :
  create Fixture.pulp {[ "version" := "1.2.0" ]} Fixture.world
  = (Raise (ValidationError (Field "artifact" "This field is required")), Fixture.world)
  ∧
  create Fixture.pulp {[ "artifact" := "/pulp/api/v3/artifacts/11/" ]} Fixture.world
  = (Raise (ValidationError (Field "name" "This field is required")), Fixture.world).
Proof.
  split.
  - destruct (create_required_fields Fixture.pulp {[ "version" := "1.2.0" ]}
                Fixture.world) as [Hartifact _].
    apply Hartifact. vm_compute; reflexivity.
  - destruct (create_required_fields Fixture.pulp
                {[ "artifact" := "/pulp/api/v3/artifacts/11/" ]} Fixture.world)
      as [_ Hname].
    apply (Hname "/pulp/api/v3/artifacts/11/" Fixture.artifact);
      vm_compute; reflexivity.
Defined.

(** C9, as stated, fails: a request that has the key [artifact] and no
    [name] does not always fail with the error on [name].  When
    [get_resource] rejects the reference, its exception is not a [KeyError],
    passes the first [except] clause, and leaves [create] before the name is
    looked at. *)
Lemma create_name_required_counterexample :
  ¬ (∀ (pulp : Collaborators) (data : gmap string string) (w : World),
       is_Some (data !! "artifact") →
       data !! "name" = None →
       fst (create pulp data w) = Raise (ValidationError name_required)).
Proof.
  intros H.
  specialize (H Fixture.pulp {[ "artifact" := "/pulp/api/v3/artifacts/12/" ]}
                Fixture.world).
  assert (fst (create Fixture.pulp {[ "artifact" := "/pulp/api/v3/artifacts/12/" ]}
                 Fixture.world)
          = Raise (ValidationError
                     (Message "URI not valid: /pulp/api/v3/artifacts/12/"))) as Hrun
    by (vm_compute; reflexivity).
  rewrite Hrun in H.
  discriminate H; [by eexists | vm_compute; reflexivity].
Qed.

(** ** Further properties of the resolver *)

(** X1. The data [validate] returns is the request's data with at most the
    key ['repository_version'] added: the repository of the request is kept
    as it is, and a request that already names a version is returned
    unchanged ([new_data.update(data)] lets the keys of the request win). *)
Theorem validate_keeps_request_keys
    (pulp : Collaborators) (data validated : PublishData.t) :
  validate pulp data = Return validated →
  PublishData.repository validated = PublishData.repository data ∧
  (PublishData.repository_version data = None ∨ validated = data).
Proof.
  destruct data as [[r|] [rv|]]; intros H.
  - by erewrite validate_both in H.
  - erewrite validate_repository in H by done.
    destruct (latest pulp r); simplify_eq/=. auto.
  - erewrite validate_version in H by done. simplify_eq/=. auto.
  - by erewrite validate_neither in H.
Qed.

Lemma validate_keeps_request_keys_witness :
  PublishData.repository
    {| PublishData.repository := Some Fixture.R;
       PublishData.repository_version := Some (Fixture.v 3%N) |}
  = Some Fixture.R
  ∧
  (PublishData.repository_version
     {| PublishData.repository := Some Fixture.R;
        PublishData.repository_version := None |} = None
   ∨ {| PublishData.repository := Some Fixture.R;
        PublishData.repository_version := Some (Fixture.v 3%N) |}
     = {| PublishData.repository := Some Fixture.R;
          PublishData.repository_version := None |}).
Proof.
  apply (validate_keeps_request_keys Fixture.pulp
           {| PublishData.repository := Some Fixture.R;
              PublishData.repository_version := None |}
           {| PublishData.repository := Some Fixture.R;
              PublishData.repository_version := Some (Fixture.v 3%N) |}).
  reflexivity.
Defined.

(** X2. [validate] is not idempotent.  Data returned for a request that
    named a repository binds both keys, so validating it again raises the
    "but not both" error; data returned for a request that named only a
    version validates again to itself. *)
Theorem validate_again
    (pulp : Collaborators) (data validated : PublishData.t) :
  validate pulp data = Return validated →
  validate pulp validated =
    match PublishData.repository data with
    | Some _ => Raise (ValidationError both_specified)
    | None => Return validated
    end.
Proof.
  destruct data as [[r|] [rv|]]; intros H; simpl.
  - by erewrite validate_both in H.
  - erewrite validate_repository in H by done.
    destruct (latest pulp r) as [version|]; simplify_eq/=.
    by eapply validate_both.
  - erewrite validate_version in H by done. simplify_eq/=.
    by eapply validate_version.
  - by erewrite validate_neither in H.
Qed.

Lemma validate_again_witness :
  validate Fixture.pulp
    {| PublishData.repository := Some Fixture.R;
       PublishData.repository_version := Some (Fixture.v 3%N) |}
  = Raise (ValidationError both_specified).
Proof.
  apply (validate_again Fixture.pulp
           {| PublishData.repository := Some Fixture.R;
              PublishData.repository_version := None |}).
  reflexivity.
Defined.

(** X3. [validate] raises nothing but its three validation errors, each in
    exactly one situation: no key bound, both keys bound, or only a
    repository for which [RepositoryVersion.latest] finds no version. *)
Theorem validate_Raise_iff
    (pulp : Collaborators) (data : PublishData.t) (e : exn) :
  validate pulp data = Raise e ↔
    (PublishData.repository data = None ∧
     PublishData.repository_version data = None ∧
     e = ValidationError neither_specified) ∨
    (is_Some (PublishData.repository data) ∧
     is_Some (PublishData.repository_version data) ∧
     e = ValidationError both_specified) ∨
    (∃ r, PublishData.repository data = Some r ∧
          PublishData.repository_version data = None ∧
          latest pulp r = None ∧
          e = ValidationError no_version_available).
Proof.
  destruct data as [[r|] [rv|]]; simpl.
  - erewrite validate_both by done. split.
    + intros ?; simplify_eq. right; left. eauto.
    + intros [(? & _)|[(_ & _ & ->)|(? & _ & ? & _)]]; by simplify_eq.
  - erewrite validate_repository by done. split.
    + destruct (latest pulp r) eqn:Hl; intros ?; simplify_eq.
      right; right. by exists r.
    + intros [(? & _)|[(_ & [? ?] & _)|(r' & ? & _ & Hl & ->)]]; simplify_eq.
      by rewrite Hl.
  - erewrite validate_version by done. split; [done|].
    intros [(_ & ? & _)|[([? ?] & _)|(? & ? & _)]]; by simplify_eq.
  - erewrite validate_neither by done. split.
    + intros ?; simplify_eq. by left.
    + intros [(_ & _ & ->)|[([? ?] & _)|(? & ? & _)]]; by simplify_eq.
Qed.

(** ** Further properties of the dispatcher *)


(** X5. Publishing a repository publishes its latest version under the
    reservation of that repository: when the request names only a
    repository, [RepositoryVersion.latest] finds a version of it, and the
    publisher exists, the one task queued is reserved on the repository of
    the request and the publisher and carries the key of the latest
    version. *)
Theorem publish_repository_latest
    (pulp : Collaborators) (request_data : gmap string string) (pk : Pk)
    (publisher : CookbookPublisher.t) (data : PublishData.t)
    (r : Repository.t) (version : RepositoryVersion.t) (w : World) :
  get_object pulp pk = Return publisher →
  to_internal_value pulp request_data = Return data →
  PublishData.repository data = Some r →
  PublishData.repository_version data = None →
  latest pulp r = Some version →
  RepositoryVersion.repository version = r →
  publish pulp request_data pk w =
    (Return {| OperationPostponedResponse.task_id := length (queue w) |},
     {| db := db w;
        queue := queue w ++
          [{| Task.task_name := "publish";
              Task.resources := [RepositoryResource r; PublisherResource publisher];
              Task.kwargs :=
                {[ "publisher_pk" := str pulp (CookbookPublisher.pk publisher);
                   "repository_version_pk" :=
                     str pulp (RepositoryVersion.pk version) ]} |}] |}).
Proof.
  intros Hobj Hfields Hr Hv Hlatest Hrepo.
  assert (publish_is_valid pulp request_data =
          Return {| PublishData.repository := Some r;
                    PublishData.repository_version := Some version |}) as Hvalid.
  { unfold publish_is_valid. rewrite Hfields.
    rewrite (validate_repository pulp data r Hr Hv). by rewrite Hlatest. }
  rewrite (publish_run _ _ _ _ _ version w Hobj Hvalid eq_refl).
  unfold publish_task. by rewrite Hrepo.
Qed.

Lemma publish_repository_latest_witness :
  publish Fixture.pulp {[ "repository" := "/pulp/api/v3/repositories/1/" ]}
    7%N Fixture.world
  = (Return {| OperationPostponedResponse.task_id := 0 |},
     {| db := db Fixture.world;
        queue :=
          [{| Task.task_name := "publish";
              Task.resources :=
                [RepositoryResource Fixture.R; PublisherResource Fixture.publisher];
              Task.kwargs :=
                {[ "publisher_pk" := "7"; "repository_version_pk" := "103" ]} |}] |}).
Proof.
  apply (publish_repository_latest Fixture.pulp
           {[ "repository" := "/pulp/api/v3/repositories/1/" ]} 7%N
           Fixture.publisher
           {| PublishData.repository := Some Fixture.R;
              PublishData.repository_version := None |}
           Fixture.R (Fixture.v 3%N) Fixture.world);
    vm_compute; reflexivity.
Defined.

(** X6. A request that names only a repository version publishes exactly
    that version, reserved on the repository that owns it, whatever the
    latest version of that repository is. *)
Theorem publish_named_version
    (pulp : Collaborators) (request_data : gmap string string) (pk : Pk)
    (publisher : CookbookPublisher.t) (data : PublishData.t)
    (rv : RepositoryVersion.t) (w : World) :
  get_object pulp pk = Return publisher →
  to_internal_value pulp request_data = Return data →
  PublishData.repository data = None →
  PublishData.repository_version data = Some rv →
  publish pulp request_data pk w =
    (Return {| OperationPostponedResponse.task_id := length (queue w) |},
     {| db := db w;
        queue := queue w ++
          [{| Task.task_name := "publish";
              Task.resources :=
                [RepositoryResource (RepositoryVersion.repository rv);
                 PublisherResource publisher];
              Task.kwargs :=
                {[ "publisher_pk" := str pulp (CookbookPublisher.pk publisher);
                   "repository_version_pk" := str pulp (RepositoryVersion.pk rv) ]}
            |}] |}).
Proof.
  intros Hobj Hfields Hr Hv.
  assert (publish_is_valid pulp request_data = Return data) as Hvalid.
  { unfold publish_is_valid. rewrite Hfields.
    by rewrite (validate_version pulp data rv Hr Hv). }
  by rewrite (publish_run _ _ _ _ _ rv w Hobj Hvalid Hv).
Qed.

Lemma publish_named_version_witness :
  publish Fixture.pulp
    {[ "repository_version" := "/pulp/api/v3/repositories/1/versions/2/" ]}
    7%N Fixture.world
  = (Return {| OperationPostponedResponse.task_id := 0 |},
     {| db := db Fixture.world;
        queue :=
          [{| Task.task_name := "publish";
              Task.resources :=
                [RepositoryResource Fixture.R; PublisherResource Fixture.publisher];
              Task.kwargs :=
                {[ "publisher_pk" := "7"; "repository_version_pk" := "102" ]} |}] |}).
Proof.
  apply (publish_named_version Fixture.pulp
           {[ "repository_version" := "/pulp/api/v3/repositories/1/versions/2/" ]}
           7%N Fixture.publisher
           {| PublishData.repository := None;
              PublishData.repository_version := Some (Fixture.v 2%N) |}
           (Fixture.v 2%N) Fixture.world);
    vm_compute; reflexivity.
Defined.

(** ** Further properties of the admission *)

Section AdmissionErrors.

Variable pulp : Collaborators.

(** What the first [except] clause makes of an exception of the resolver. *)
Lemma create_body_resolver_raise data uri e w :
  data !! "artifact" = Some uri →
  get_resource pulp uri = Raise e →
  create_body pulp data w =
    (Raise match e with
           | KeyError _ => ValidationError artifact_required
           | _ => e
           end, w).
Proof. intros Ha Hres. run_view. rewrite Ha, Hres. by destruct e. Qed.

(** What the second [try] makes of an exception of the extraction. *)
Lemma create_body_extraction_raise data uri artifact name e w :
  data !! "artifact" = Some uri →
  get_resource pulp uri = Return artifact →
  data !! "name" = Some name →
  from_cookbook_file pulp (Artifact.file_name artifact) name = Raise e →
  create_body pulp data w =
    (Raise match e with
           | KeyError _ => ValidationError name_required
           | FileNotFoundError => ValidationError no_metadata_found
           | _ => e
           end, w).
Proof. intros Ha Hres Hn Hm. run_view. rewrite Ha, Hres, Hn, Hm. by destruct e. Qed.

(** Taking a declared version out of a request changes the outcome of the
    body only if that version was a mismatch. *)
Lemma create_body_declared_version data w :
  create_body pulp (delete "version" data) w = create_body pulp data w ∨
  create_body pulp data w = (Raise (ValidationError version_mismatch), w).
Proof.
  destruct (data !! "version") as [version|] eqn:Hv;
    [|left; by rewrite delete_id].
  assert (delete "version" data !! "artifact" = data !! "artifact") as Ha'
    by by apply lookup_delete_ne.
  assert (delete "version" data !! "name" = data !! "name") as Hn'
    by by apply lookup_delete_ne.
  destruct (data !! "artifact") as [uri|] eqn:Ha.
  2: { left. by rewrite !create_body_no_artifact. }
  destruct (get_resource pulp uri) as [artifact|e] eqn:Hres.
  2: { left. by rewrite !(create_body_resolver_raise _ uri e). }
  destruct (data !! "name") as [name|] eqn:Hn.
  2: { left. by rewrite !(create_body_no_name pulp _ uri artifact). }
  destruct (from_cookbook_file pulp (Artifact.file_name artifact) name)
    as [metadata|e] eqn:Hm.
  2: { left. by rewrite !(create_body_extraction_raise _ uri artifact name e). }
  destruct (decide (version = CookbookMetadata.version metadata)) as [->|Hne].
  - left.
    rewrite (create_body_checked pulp data uri artifact name metadata w)
      by auto.
    rewrite (create_body_checked pulp (delete "version" data) uri artifact
               name metadata w) by (try done; left; apply lookup_delete_eq).
    unfold admitted. by rewrite insert_delete_eq, Hn', Hn.
  - right. by eapply create_body_mismatch.
Qed.

End AdmissionErrors.

(** [create] either raises and leaves the world alone, or returns after
    appending its record to the content table and one row to the bindings. *)
Lemma create_outcome pulp data w :
  (∃ e, create pulp data w = (Raise e, w)) ∨
  (∃ response artifact,
     create pulp data w =
       (Return response,
        {| db :=
             {| content := content (db w) ++ [Response.data response];
                content_artifact :=
                  content_artifact (db w) ++
                    [{| ContentArtifact.content :=
                          CookbookPackageContent.pk (Response.data response);
                        ContentArtifact.artifact := artifact |}] |};
           queue := queue w |})).
Proof.
  destruct (create_body pulp data w) as [[response|e] w'] eqn:Hbody.
  - right.
    destruct (create_body_Return _ _ _ _ _ Hbody)
      as (uri & artifact & name & metadata & Ha & Hres & Hn & Hm & Hv & Hser).
    rewrite (create_body_checked pulp data uri artifact name metadata w) in Hbody
      by done.
    simpl in Hbody. rewrite Hser in Hbody. simplify_eq.
    exists {| Response.data := admitted data metadata w;
              Response.status := HTTP_201_CREATED;
              Response.headers :=
                get_success_headers pulp
                  (<["version" := CookbookMetadata.version metadata]> data) |},
      artifact.
    apply create_Return_iff_body.
    rewrite (create_body_checked pulp data uri artifact name metadata w) by done.
    simpl. by rewrite Hser.
  - left. exists e. apply create_Raise_of_body.
    by rewrite Hbody, (create_body_Raise _ _ _ _ _ Hbody).
Qed.



(** X8. A declared version can only make an admission fail.  Whatever the
    request and the collaborators, [create] either behaves exactly as on the
    same request without its [version] key, or raises the version-mismatch
    error and leaves the world as it was. *)
Theorem create_declared_version
    (pulp : Collaborators) (data : gmap string string) (w : World) :
  create pulp (delete "version" data) w = create pulp data w ∨
  create pulp data w = (Raise (ValidationError version_mismatch), w).
Proof.
  destruct (create_body_declared_version pulp data w) as [Heq|Hmismatch].
  - left. unfold create, atomic. by rewrite Heq.
  - right. by apply create_Raise_of_body.
Qed.

(** X9. An exception of the artifact resolver that is not a [KeyError]
    leaves [create] unchanged, whatever the rest of the request: the first
    [try] catches only [KeyError].  The world is as it was. *)
Theorem create_resolver_error
    (pulp : Collaborators) (data : gmap string string) (uri : string)
    (e : exn) (w : World) :
  data !! "artifact" = Some uri →
  get_resource pulp uri = Raise e →
  (∀ key, e ≠ KeyError key) →
  create pulp data w = (Raise e, w).
Proof.
  intros Ha Hres Hne. apply create_Raise_of_body.
  rewrite (create_body_resolver_raise pulp data uri e w Ha Hres).
  destruct e; try done. by destruct (Hne key).
Qed.

Lemma create_resolver_error_witness :
  create Fixture.pulp
    {[ "artifact" := "/pulp/api/v3/artifacts/12/"; "name" := "mycookbook" ]}
    Fixture.world
  = (Raise (ValidationError (Message "URI not valid: /pulp/api/v3/artifacts/12/")),
     Fixture.world).
Proof.
  apply (create_resolver_error Fixture.pulp _ "/pulp/api/v3/artifacts/12/");
    [vm_compute; reflexivity.. | discriminate].
Defined.

(** X10. A [KeyError] raised inside a collaborator is taken for a missing
    key of the request, because each [try] encloses the call as well as the
    subscript: from the resolver it is reported as "This field is required"
    on [artifact] although the request has that key, and from the extraction
    as "This field is required" on [name] although the request has a name. *)
Theorem create_key_error_masked
    (pulp : Collaborators) (data : gmap string string) (w : World) :
  (∀ uri key,
     data !! "artifact" = Some uri →
     get_resource pulp uri = Raise (KeyError key) →
     create pulp data w = (Raise (ValidationError artifact_required), w)) ∧
  (∀ uri artifact name key,
     data !! "artifact" = Some uri →
     get_resource pulp uri = Return artifact →
     data !! "name" = Some name →
     from_cookbook_file pulp (Artifact.file_name artifact) name
       = Raise (KeyError key) →
     create pulp data w = (Raise (ValidationError name_required), w)).
Proof.
  split.
  - intros uri key Ha Hres. apply create_Raise_of_body.
    by rewrite (create_body_resolver_raise pulp data uri _ w Ha Hres).
  - intros uri artifact name key Ha Hres Hn Hm. apply create_Raise_of_body.
    by rewrite (create_body_extraction_raise pulp data uri artifact name _ w
                  Ha Hres Hn Hm).
Qed.

Lemma create_key_error_masked_witness :
  create Faulty.resolver_key_error Fixture.request Fixture.world
  = (Raise (ValidationError (Field "artifact" "This field is required")),
     Fixture.world)
  ∧
  create Faulty.extraction_key_error Fixture.request Fixture.world
  = (Raise (ValidationError (Field "name" "This field is required")),
     Fixture.world).
Proof.
  split.
  - destruct (create_key_error_masked Faulty.resolver_key_error Fixture.request
                Fixture.world) as [Hresolver _].
    apply (Hresolver "/pulp/api/v3/artifacts/11/" "pk"); vm_compute; reflexivity.
  - destruct (create_key_error_masked Faulty.extraction_key_error Fixture.request
                Fixture.world) as [_ Hextraction].
    apply (Hextraction "/pulp/api/v3/artifacts/11/" Fixture.artifact
             "mycookbook" "version"); vm_compute; reflexivity.
Defined.

(** X11. An exception of the metadata extraction that is neither a
    [KeyError] nor a [FileNotFoundError] (an artifact that is no tar archive,
    a descriptor that is no JSON) is not turned into a validation error:
    [create] raises it as it is, and the world is as it was. *)
Theorem create_extraction_error
    (pulp : Collaborators) (data : gmap string string) (uri name : string)
    (artifact : Artifact.t) (e : exn) (w : World) :
  data !! "artifact" = Some uri →
  get_resource pulp uri = Return artifact →
  data !! "name" = Some name →
  from_cookbook_file pulp (Artifact.file_name artifact) name = Raise e →
  (∀ key, e ≠ KeyError key) →
  e ≠ FileNotFoundError →
  create pulp data w = (Raise e, w).
Proof.
  intros Ha Hres Hn Hm Hkey Hfile. apply create_Raise_of_body.
  rewrite (create_body_extraction_raise pulp data uri artifact name e w
             Ha Hres Hn Hm).
  destruct e; try done. by destruct (Hkey key).
Qed.

Lemma create_extraction_error_witness :
  create Faulty.unreadable Fixture.request Fixture.world
  = (Raise (OtherException "tarfile.ReadError"), Fixture.world).
Proof.
  apply (create_extraction_error Faulty.unreadable Fixture.request
           "/pulp/api/v3/artifacts/11/" "mycookbook" Fixture.artifact);
    [vm_compute; reflexivity.. | discriminate | discriminate].
Defined.



(** X13. [create] keeps the invariant that every content unit is bound to
    an artifact: if every record of the content table has a row in the
    bindings before the call, so has every record after it, whether the call
    returns or raises.  The record is saved and bound inside one
    transaction. *)
Theorem create_keeps_content_bound
    (pulp : Collaborators) (data : gmap string string) (w : World) :
  every_content_bound (db w) →
  every_content_bound (db (snd (create pulp data w))).
Proof.
  intros Hbound.
  destruct (create_outcome pulp data w) as [[e ->]|(response & artifact & ->)];
    [done|].
  unfold every_content_bound in *. simpl.
  apply Forall_app. split.
  - eapply Forall_impl; [exact Hbound|].
    intros c Hc. apply Exists_app. by left.
  - apply Forall_singleton, Exists_app. right. by apply Exists_cons_hd.
Qed.

Lemma create_keeps_content_bound_witness :
  every_content_bound
    (db (snd (create Fixture.pulp Fixture.request Fixture.world_after))).
Proof.
  apply (create_keeps_content_bound Fixture.pulp Fixture.request
           Fixture.world_after).
  unfold every_content_bound. simpl.
  apply Forall_singleton, Exists_cons_hd. reflexivity.
Defined.

(** X14. [create] only ever adds: after any call the former content table
    and the former bindings are prefixes of the new ones, both tables have
    grown by the same number of rows, at most one, and the task queue is the
    same. *)
Theorem create_only_appends
    (pulp : Collaborators) (data : gmap string string) (w : World) :
  ∃ w' : World,
    snd (create pulp data w) = w' ∧
    content (db w) `prefix_of` content (db w') ∧
    content_artifact (db w) `prefix_of` content_artifact (db w') ∧
    (length (content (db w')) - length (content (db w))
     = length (content_artifact (db w')) - length (content_artifact (db w)))%nat ∧
    (length (content (db w')) ≤ S (length (content (db w))))%nat ∧
    queue w' = queue w.
Proof.
  destruct (create_outcome pulp data w) as [[e ->]|(response & artifact & ->)];
    simpl; eexists; (split; [reflexivity|]); simpl.
  - repeat split; try done; lia.
  - rewrite !length_app. simpl. repeat split.
    + by apply prefix_app_r.
    + by apply prefix_app_r.
    + lia.
    + lia.
Qed.
